(** * HealthScan AI backend: the token-verification gate and its routes

    A shallow embedding of [backend/auth_utils.py] and [backend/main.py].

    The two files are glue around three outside collaborators: FastAPI's
    [HTTPBearer] security scheme, the Firebase Admin SDK
    ([credentials.Certificate], [firebase_admin.initialize_app],
    [auth.verify_id_token]) and the operating system ([os.getenv],
    [os.path.exists]).  None of them is part of the repository, so they are
    taken as parameters, gathered in the record [Env]; everything else is
    translated from the two source files.

    Python dictionaries are [gmap string value]; exceptions are threaded
    through a small state-and-error monad whose state holds the process-wide
    Firebase application, the standard output and a log of the calls made
    while a request is served. *)

From Stdlib Require Import ZArith Ascii.
From stdpp Require Import gmap strings list fin_maps.

Open Scope Z_scope.
Open Scope string_scope.

(** ** Python values and exceptions *)

Module Py.

(** The JSON-shaped values that travel through the code: token claims and
    response bodies. *)
#[warnings="-register-all"] Inductive value : Type :=
  | VNone
  | VBool (b : bool)
  | VInt (z : Z)
  | VStr (s : string)
  | VList (l : list value)
  | VDict (d : gmap string value).

(** A raised [Exception], seen through its class name and its [str()]. *)
Record Exception : Type := mkException {
  exc_type : string;
  exc_str : string
}.

(** [d.get(k)]: the value bound to [k], [None] when there is none. *)
Definition get (d : gmap string value) (k : string) : value :=
  default VNone (d !! k).

(** [d[k]]: raises [KeyError] on a missing key. *)
Definition getitem (d : gmap string value) (k : string) : Exception + value :=
  match d !! k with
  | Some v => inr v
  | None => inl (mkException "KeyError" ("'" ++ k ++ "'"))
  end.

End Py.

Import Py.

(** ** HTTP *)

(** [fastapi.HTTPException(status_code=..., detail=...)]. *)
Record HTTPException : Type := mkHTTPException {
  status_code : Z;
  detail : string
}.

(** [fastapi.security.HTTPAuthorizationCredentials]. *)
Record HTTPAuthorizationCredentials : Type := mkHTTPAuthorizationCredentials {
  scheme : string;
  credentials : string
}.

(** A GET request: its path and its [Authorization] header, if any. *)
Record Request : Type := mkRequest {
  path : string;
  authorization : option string
}.

Record Response : Type := mkResponse {
  status : Z;
  body : value
}.

(** ** The process and its collaborators *)

(** The object built by [credentials.Certificate(path)]. *)
Record Credential : Type := mkCredential {
  service_account : string
}.

(** The default application registered by [firebase_admin.initialize_app]. *)
Record App : Type := mkApp {
  app_credential : Credential
}.

(** What [os.getenv] and [os.path.exists] see. *)
Record OS : Type := mkOS {
  environ : gmap string string;
  path_exists : string -> bool
}.

(** Process-wide state: the SDK's default application (absent until
    [initialize_app] has run) and what was printed. *)
Record Process : Type := mkProcess {
  firebase_app : option App;
  stdout : list string
}.

(** The collaborators that live outside the repository.
    - [security]: what the [HTTPBearer()] instance does with the request's
      [Authorization] header;
    - [Certificate], [initialize_app]: loading and registering the service
      credential;
    - [verify_id_token]: the provider's check of a token against the
      registered application, giving the decoded claim set or raising. *)
Record Env : Type := mkEnv {
  security : option string -> HTTPException + HTTPAuthorizationCredentials;
  Certificate : string -> Exception + Credential;
  initialize_app : Credential -> Exception + App;
  verify_id_token : option App -> string -> Exception + gmap string value
}.

(** The functions of the two source files, and the scheme they depend on. *)
Inductive Fn : Type :=
  | fn_security
  | fn_verify_firebase_token
  | fn_get_current_user
  | fn_read_root
  | fn_health_check
  | fn_protected_route
  | fn_get_user_profile.

(** The state a request is served in: the process, and the calls made so
    far, oldest first. *)
Record World : Type := mkWorld {
  process : Process;
  calls : list Fn
}.

(** ** A state-and-error monad *)

(** What a call can raise: an [HTTPException], which FastAPI turns into a
    response of its status, or any other exception. *)
Inductive Raised : Type :=
  | RaiseHTTP (e : HTTPException)
  | RaiseExc (e : Exception).

Definition M (A : Type) : Type := World -> (Raised + A) * World.

Definition ret {A} (a : A) : M A := fun w => (inr a, w).

Definition raise {A} (r : Raised) : M A := fun w => (inl r, w).

Definition bind {A B} (m : M A) (k : A -> M B) : M B :=
  fun w =>
    match m w with
    | (inl r, w') => (inl r, w')
    | (inr a, w') => k a w'
    end.

Declare Scope py_scope.
Delimit Scope py_scope with py.
Notation "x <- m ;; k" := (bind m (fun x => k))
  (at level 100, m at next level, right associativity) : py_scope.
Open Scope py_scope.

(** Entering function [f]: the call is recorded, then the body runs. *)
Definition enter (f : Fn) (w : World) : World :=
  {| process := process w; calls := (calls w ++ [f])%list |}.

Definition call {A} (f : Fn) (m : M A) : M A :=
  fun w => m (enter f w).

(** [try: body / except Exception as e: handler(e)], for a body that reads
    the process. *)
Definition try_except {A} (body : Process -> Exception + A)
    (handler : Exception -> M A) : M A :=
  fun w =>
    match body (process w) with
    | inr a => (inr a, w)
    | inl e => handler e w
    end.

Definition lift_http {A} (r : HTTPException + A) : M A :=
  match r with
  | inl e => raise (RaiseHTTP e)
  | inr a => ret a
  end.

Definition lift_exc {A} (r : Exception + A) : M A :=
  match r with
  | inl e => raise (RaiseExc e)
  | inr a => ret a
  end.

(** ** [auth_utils.py] *)

Module auth_utils.

(** [cred_path = os.getenv('FIREBASE_ADMIN_CREDENTIALS', 'firebase-admin-key.json')] *)
Definition cred_path (os : OS) : string :=
  default "firebase-admin-key.json" (environ os !! "FIREBASE_ADMIN_CREDENTIALS").

Definition warning : string :=
  "Warning: Firebase Admin credentials not found. Authentication will be disabled.".

(** The module's top-level statements, run once when the process starts:
    the outcome is the process they leave behind, or the exception that
    escapes them. *)
Definition startup (E : Env) (os : OS) : Exception + Process :=
  if path_exists os (cred_path os) then
    match Certificate E (cred_path os) with
    | inl e => inl e
    | inr cred =>
        match initialize_app E cred with
        | inl e => inl e
        | inr a => inr {| firebase_app := Some a; stdout := [] |}
        end
    end
  else
    inr {| firebase_app := None; stdout := [warning] |}.

(** [verify_firebase_token(credentials)] *)
Definition verify_firebase_token (E : Env)
    (credentials0 : HTTPAuthorizationCredentials) : M (gmap string value) :=
  try_except
    (fun p =>
       let token := credentials credentials0 in
       verify_id_token E (firebase_app p) token)
    (fun e =>
       raise (RaiseHTTP {| status_code := 401;
                           detail := "Invalid authentication credentials: " ++ exc_str e |})).

(** [get_current_user(token_data)] *)
Definition get_current_user (token_data : gmap string value) : gmap string value :=
  {[ "uid" := get token_data "uid";
     "email" := get token_data "email";
     "name" := get token_data "name";
     "picture" := get token_data "picture" ]}.

End auth_utils.

Import auth_utils.

(** ** [main.py] *)

Module main.

(** [read_root()] *)
Definition read_root : value :=
  VDict {[ "message" := VStr "HealthScan AI Backend API" ]}.

(** [health_check()] *)
Definition health_check : value :=
  VDict {[ "status" := VStr "healthy" ]}.

(** [protected_route(current_user)] *)
Definition protected_route (current_user : gmap string value) : value :=
  VDict {[ "message" := VStr "This is a protected route";
           "user" := VDict current_user ]}.

(** [get_user_profile(current_user)]: the four subscripts are evaluated in
    the order they are written, and the first missing key raises. *)
Definition get_user_profile (current_user : gmap string value) : Exception + value :=
  match getitem current_user "uid" with
  | inl e => inl e
  | inr uid =>
  match getitem current_user "email" with
  | inl e => inl e
  | inr email =>
  match getitem current_user "name" with
  | inl e => inl e
  | inr name =>
  match getitem current_user "picture" with
  | inl e => inl e
  | inr picture =>
      inr (VDict {[ "uid" := uid; "email" := email;
                    "name" := name; "picture" := picture ]})
  end end end end.

(** *** Dependencies

    A parameter declared [= Depends(f)] is obtained by calling [f], whose
    own [Depends] parameters are obtained first; an exception raised on
    the way ends the request. *)
Section Routes.
Context (E : Env).

Definition Depends_security (req : Request) : M HTTPAuthorizationCredentials :=
  call fn_security (lift_http (security E (authorization req))).

Definition Depends_verify_firebase_token (req : Request) : M (gmap string value) :=
  credentials0 <- Depends_security req ;;
  call fn_verify_firebase_token (verify_firebase_token E credentials0).

Definition Depends_get_current_user (req : Request) : M (gmap string value) :=
  token_data <- Depends_verify_firebase_token req ;;
  call fn_get_current_user (ret (get_current_user token_data)).

(** The route table built by the four [@app.get] decorators. *)
Definition endpoint (req : Request) : option (M value) :=
  if String.eqb (path req) "/" then
    Some (call fn_read_root (ret read_root))
  else if String.eqb (path req) "/health" then
    Some (call fn_health_check (ret health_check))
  else if String.eqb (path req) "/api/protected" then
    Some (current_user <- Depends_get_current_user req ;;
          call fn_protected_route (ret (protected_route current_user)))
  else if String.eqb (path req) "/api/user/profile" then
    Some (current_user <- Depends_get_current_user req ;;
          call fn_get_user_profile (lift_exc (get_user_profile current_user)))
  else None.

(** How an outcome is sent back: a returned value as a 200 response, an
    [HTTPException] as its status with the detail in the body, anything
    else as a 500. *)
Definition respond (r : Raised + value) : Response :=
  match r with
  | inr v => {| status := 200; body := v |}
  | inl (RaiseHTTP e) =>
      {| status := status_code e; body := VDict {[ "detail" := VStr (detail e) ]} |}
  | inl (RaiseExc _) =>
      {| status := 500; body := VStr "Internal Server Error" |}
  end.

(** Serving one GET request. *)
Definition app (req : Request) : World -> Response * World :=
  fun w =>
    match endpoint req with
    | Some m => let '(r, w') := m w in (respond r, w')
    | None => ({| status := 404; body := VDict {[ "detail" := VStr "Not Found" ]} |}, w)
    end.

(** The environment [E] with [v] in place of the provider's check. *)
Definition with_provider
    (v : option App -> string -> Exception + gmap string value) : Env :=
  {| security := security E;
     Certificate := Certificate E;
     initialize_app := initialize_app E;
     verify_id_token := v |}.


End Routes.

End main.

Import main.

(** The protected routes, and where the identity sits in their bodies. *)
Definition protected_path (p : string) : Prop :=
  p = "/api/protected" \/ p = "/api/user/profile".

Definition identity_of (p : string) (b : value) : option (gmap string value) :=
  match b with
  | VDict d =>
      if String.eqb p "/api/protected" then
        match d !! "user" with
        | Some (VDict u) => Some u
        | _ => None
        end
      else Some d
  | _ => None
  end.

(** The calls made while going from [w] to [w']. *)
Definition calls_since (w w' : World) (l : list Fn) : Prop :=
  calls w' = (calls w ++ l)%list.

(** The four keys of the identity dictionary. *)
Definition identity_keys : gset string :=
  {[ "uid"; "email"; "name"; "picture" ]}.

(** ** Sample collaborators

    Concrete instances of [Env], used to run the definitions. *)

Module Sample.

(** [str.lower], on the ASCII letters. *)
Definition lower_ascii (c : Ascii.ascii) : Ascii.ascii :=
  let n := Ascii.nat_of_ascii c in
  if ((65 <=? n) && (n <=? 90))%nat then Ascii.ascii_of_nat (n + 32) else c.

Fixpoint lower (s : string) : string :=
  match s with
  | EmptyString => EmptyString
  | String c rest => String (lower_ascii c) (lower rest)
  end.

(** [s.partition(" ")], without the separator: what stands before the first
    space and what stands after it. *)
Fixpoint partition_space (s : string) : string * string :=
  match s with
  | EmptyString => (EmptyString, EmptyString)
  | String c rest =>
      if Ascii.eqb c " "%char then (EmptyString, rest)
      else let '(before, after) := partition_space rest in
           (String c before, after)
  end.

(** A bearer scheme in the manner of FastAPI's [HTTPBearer]: a header that
    is missing or lacks a scheme or credentials is rejected as
    ["Not authenticated"], a scheme other than [bearer] (in any case) as
    ["Invalid authentication credentials"], both with the status [rejected]
    (403 up to release 0.121 of FastAPI, 401 afterwards). *)
Definition HTTPBearer (rejected : Z) (header : option string)
    : HTTPException + HTTPAuthorizationCredentials :=
  match header with
  | None => inl (mkHTTPException rejected "Not authenticated")
  | Some h =>
      let '(scheme0, credentials0) := partition_space h in
      if String.eqb scheme0 "" || String.eqb credentials0 "" then
        inl (mkHTTPException rejected "Not authenticated")
      else if negb (String.eqb (lower scheme0) "bearer") then
        inl (mkHTTPException rejected "Invalid authentication credentials")
      else
        inr (mkHTTPAuthorizationCredentials scheme0 credentials0)
  end.

Definition alice : gmap string value :=
  {[ "sub" := VStr "u-1001";
     "uid" := VStr "u-1001";
     "email" := VStr "alice@example.org";
     "iss" := VStr "https://securetoken.google.com/healthscan";
     "exp" := VInt 1767225600 ]}.

(** A provider that knows one token, and none while no application is
    registered. *)
Definition provider (a : option App) (token : string)
    : Exception + gmap string value :=
  match a with
  | None =>
      inl (mkException "ValueError" "The default Firebase app does not exist.")
  | Some _ =>
      if String.eqb token "alice-token" then inr alice
      else inl (mkException "InvalidIdTokenError" "Wrong number of segments in token")
  end.

Definition env (rejected : Z) : Env :=
  {| security := HTTPBearer rejected;
     Certificate := fun p => inr (mkCredential p);
     initialize_app := fun c => inr (mkApp c);
     verify_id_token := provider |}.

(** The same provider later on, with fresh certificates: it has come to
    know a second token, and gives the first one the claims it gave before. *)
Definition provider_later (a : option App) (token : string)
    : Exception + gmap string value :=
  match a with
  | None =>
      inl (mkException "ValueError" "The default Firebase app does not exist.")
  | Some _ =>
      if String.eqb token "alice-token" then inr alice
      else if String.eqb token "carol-token" then
        inr {[ "sub" := VStr "u-3003"; "uid" := VStr "u-3003" ]}
      else inl (mkException "InvalidIdTokenError" "Wrong number of segments in token")
  end.

(** A dictionary that binds neither [uid] nor [picture]. *)
Definition bob : gmap string value :=
  {[ "sub" := VStr "u-2002";
     "email" := VStr "bob@example.org";
     "name" := VStr "Bob" ]}.

(** A machine without the credential file, and one with it. *)
Definition bare : OS :=
  {| environ := ∅; path_exists := fun _ => false |}.

Definition provisioned : OS :=
  {| environ := {[ "FIREBASE_ADMIN_CREDENTIALS" := "/etc/healthscan/key.json" ]};
     path_exists := fun p => String.eqb p "/etc/healthscan/key.json" |}.

Definition world (p : Process) : World := {| process := p; calls := [] |}.

Definition running : World :=
  world {| firebase_app := Some (mkApp (mkCredential "/etc/healthscan/key.json"));
           stdout := [] |}.

Definition degraded : World :=
  world {| firebase_app := None; stdout := [warning] |}.

Definition bearer (token : string) : option string := Some ("Bearer " ++ token).

End Sample.

(** * Properties *)

(** ** Running the definitions *)

Example startup_provisioned :
  startup (Sample.env 403) Sample.provisioned = inr (process Sample.running).
Proof. reflexivity. Qed.

Example startup_bare :
  startup (Sample.env 403) Sample.bare = inr (process Sample.degraded).
Proof. reflexivity. Qed.

Example profile_alice :
  (app (Sample.env 403)
       (mkRequest "/api/user/profile" (Sample.bearer "alice-token"))
       Sample.running).1
  = {| status := 200;
       body := VDict {[ "uid" := VStr "u-1001"; "email" := VStr "alice@example.org";
                        "name" := VNone; "picture" := VNone ]} |}.
Proof. vm_compute. reflexivity. Qed.

Example protected_mallory :
  (app (Sample.env 403)
       (mkRequest "/api/protected" (Sample.bearer "mallory"))
       Sample.running).1
  = {| status := 401;
       body := VDict {[ "detail" :=
         VStr "Invalid authentication credentials: Wrong number of segments in token" ]} |}.
Proof. vm_compute. reflexivity. Qed.

Example bearer_scheme_any_case :
  Sample.HTTPBearer 403 (Some "bearer alice-token")
  = inr (mkHTTPAuthorizationCredentials "bearer" "alice-token").
Proof. reflexivity. Qed.

Example bearer_without_credentials :
  Sample.HTTPBearer 403 (Some "Bearer")
  = inl (mkHTTPException 403 "Not authenticated").
Proof. reflexivity. Qed.

Example basic_scheme_rejected :
  Sample.HTTPBearer 403 (Some "Basic dXNlcjpwdw==")
  = inl (mkHTTPException 403 "Invalid authentication credentials").
Proof. reflexivity. Qed.

(** ** The identity dictionary *)

Lemma identity_keys_elem (k : string) :
  k ∈ identity_keys <-> k = "uid" \/ k = "email" \/ k = "name" \/ k = "picture".
Proof.
  unfold identity_keys. rewrite !elem_of_union, !elem_of_singleton. tauto.
Qed.

Lemma get_current_user_dom (token_data : gmap string value) :
  dom (get_current_user token_data) = identity_keys.
Proof.
  unfold get_current_user, identity_keys.
  rewrite !dom_insert_L, dom_singleton_L. set_solver.
Qed.

Lemma get_current_user_lookup (token_data : gmap string value) (k : string) :
  k ∈ identity_keys ->
  get_current_user token_data !! k = Some (get token_data k).
Proof.
  intros Hk. apply identity_keys_elem in Hk.
  unfold get_current_user.
  destruct Hk as [-> | [-> | [-> | ->]]]; by simplify_map_eq.
Qed.

Lemma get_current_user_lookup_other (token_data : gmap string value) (k : string) :
  k ∉ identity_keys ->
  get_current_user token_data !! k = None.
Proof.
  intros Hk. apply not_elem_of_dom. by rewrite get_current_user_dom.
Qed.

Lemma getitem_get_current_user (token_data : gmap string value) (k : string) :
  k ∈ identity_keys ->
  getitem (get_current_user token_data) k = inr (get token_data k).
Proof.
  intros Hk. unfold getitem. by rewrite get_current_user_lookup.
Qed.

(** The profile handler rebuilds the very dictionary it was given. *)
Lemma get_user_profile_get_current_user (token_data : gmap string value) :
  get_user_profile (get_current_user token_data)
  = inr (VDict (get_current_user token_data)).
Proof.
  unfold get_user_profile.
  rewrite !getitem_get_current_user by (apply identity_keys_elem; auto).
  reflexivity.
Qed.

(** ** Resolving the dependencies *)

Section Gate.
Context (E : Env).

Lemma enter_process (f : Fn) (w : World) : process (enter f w) = process w.
Proof. reflexivity. Qed.

Lemma enter_calls (f : Fn) (w : World) : calls (enter f w) = (calls w ++ [f])%list.
Proof. reflexivity. Qed.

(** The verifier either hands back the provider's claim set or raises the
    401 built from the provider's exception; the world is left as it was. *)
Lemma verify_firebase_token_run (credentials0 : HTTPAuthorizationCredentials)
    (w : World) :
  verify_firebase_token E credentials0 w
  = (match verify_id_token E (firebase_app (process w)) (credentials credentials0) with
     | inl e =>
         inl (RaiseHTTP {| status_code := 401;
                           detail := "Invalid authentication credentials: " ++ exc_str e |})
     | inr claims => inr claims
     end, w).
Proof.
  unfold verify_firebase_token, try_except, raise.
  by destruct (verify_id_token E _ _).
Qed.

Lemma verify_firebase_token_world (credentials0 : HTTPAuthorizationCredentials)
    (w : World) :
  (verify_firebase_token E credentials0 w).2 = w.
Proof. by rewrite verify_firebase_token_run. Qed.

(** The scheme rejects the header: nothing else is called. *)
Lemma Depends_get_current_user_rejected (req : Request) (w : World)
    (e : HTTPException) :
  security E (authorization req) = inl e ->
  Depends_get_current_user E req w = (inl (RaiseHTTP e), enter fn_security w).
Proof.
  intros Hs.
  unfold Depends_get_current_user, Depends_verify_firebase_token,
    Depends_security, bind, call.
  by rewrite Hs.
Qed.

(** The scheme accepts the header: the verifier decides. *)
Lemma Depends_get_current_user_accepted (req : Request) (w : World)
    (credentials0 : HTTPAuthorizationCredentials) :
  security E (authorization req) = inr credentials0 ->
  Depends_get_current_user E req w
  = match verify_firebase_token E credentials0
            (enter fn_verify_firebase_token (enter fn_security w)) with
    | (inl r, w') => (inl r, w')
    | (inr token_data, w') =>
        (inr (get_current_user token_data), enter fn_get_current_user w')
    end.
Proof.
  intros Hs.
  unfold Depends_get_current_user, Depends_verify_firebase_token,
    Depends_security, bind, call.
  rewrite Hs. cbn.
  by destruct (verify_firebase_token E credentials0 _) as [[r | token_data] w'].
Qed.

Lemma endpoint_protected (req : Request) :
  path req = "/api/protected" ->
  endpoint E req
  = Some (current_user <- Depends_get_current_user E req ;;
          call fn_protected_route (ret (protected_route current_user))).
Proof. intros Hp. unfold endpoint. by rewrite Hp. Qed.

Lemma endpoint_profile (req : Request) :
  path req = "/api/user/profile" ->
  endpoint E req
  = Some (current_user <- Depends_get_current_user E req ;;
          call fn_get_user_profile (lift_exc (get_user_profile current_user))).
Proof. intros Hp. unfold endpoint. by rewrite Hp. Qed.

(** On a protected route, an exception raised while the identity is being
    obtained is the response, and the world is the one it was raised in. *)
Lemma app_protected_raised (req : Request) (w w' : World) (r : Raised) :
  protected_path (path req) ->
  Depends_get_current_user E req w = (inl r, w') ->
  app E req w = (respond (inl r), w').
Proof.
  intros [Hp | Hp] Hd; unfold app.
  - rewrite (endpoint_protected _ Hp). unfold bind. by rewrite Hd.
  - rewrite (endpoint_profile _ Hp). unfold bind. by rewrite Hd.
Qed.

(** On a protected route, once the identity is obtained the handler runs
    and the response is a 200 carrying it. *)
Lemma app_protected_returned (req : Request) (w w' : World)
    (token_data : gmap string value) :
  protected_path (path req) ->
  Depends_get_current_user E req w = (inr (get_current_user token_data), w') ->
  app E req w
  = ({| status := 200;
        body := if String.eqb (path req) "/api/protected"
                then protected_route (get_current_user token_data)
                else VDict (get_current_user token_data) |},
     enter (if String.eqb (path req) "/api/protected"
            then fn_protected_route else fn_get_user_profile) w').
Proof.
  intros [Hp | Hp] Hd; unfold app.
  - rewrite (endpoint_protected _ Hp). unfold bind. rewrite Hd, Hp. reflexivity.
  - rewrite (endpoint_profile _ Hp). unfold bind. rewrite Hd, Hp.
    unfold call. rewrite get_user_profile_get_current_user. reflexivity.
Qed.

(** The whole of a request whose token the provider accepts. *)
Lemma app_protected_verified (req : Request) (w : World)
    (credentials0 : HTTPAuthorizationCredentials) (claims : gmap string value) :
  protected_path (path req) ->
  security E (authorization req) = inr credentials0 ->
  verify_id_token E (firebase_app (process w)) (credentials credentials0) = inr claims ->
  app E req w
  = ({| status := 200;
        body := if String.eqb (path req) "/api/protected"
                then protected_route (get_current_user claims)
                else VDict (get_current_user claims) |},
     enter (if String.eqb (path req) "/api/protected"
            then fn_protected_route else fn_get_user_profile)
       (enter fn_get_current_user
          (enter fn_verify_firebase_token (enter fn_security w)))).
Proof.
  intros Hp Hs Hv.
  apply app_protected_returned; [done |].
  rewrite (Depends_get_current_user_accepted _ _ _ Hs).
  rewrite verify_firebase_token_run. cbn. by rewrite Hv.
Qed.

(** The whole of a request whose token the provider refuses. *)
Lemma app_protected_refused (req : Request) (w : World)
    (credentials0 : HTTPAuthorizationCredentials) (e : Exception) :
  protected_path (path req) ->
  security E (authorization req) = inr credentials0 ->
  verify_id_token E (firebase_app (process w)) (credentials credentials0) = inl e ->
  app E req w
  = ({| status := 401;
        body := VDict {[ "detail" :=
          VStr ("Invalid authentication credentials: " ++ exc_str e) ]} |},
     enter fn_verify_firebase_token (enter fn_security w)).
Proof.
  intros Hp Hs Hv.
  apply (app_protected_raised _ _ _
           (RaiseHTTP {| status_code := 401;
                         detail := "Invalid authentication credentials: " ++ exc_str e |}));
    [done |].
  rewrite (Depends_get_current_user_accepted _ _ _ Hs).
  rewrite verify_firebase_token_run. cbn. by rewrite Hv.
Qed.

(** Obtaining the identity never touches the process. *)
Lemma Depends_get_current_user_process (req : Request) (w : World) :
  process (Depends_get_current_user E req w).2 = process w.
Proof.
  destruct (security E (authorization req)) as [e | credentials0] eqn:Hs.
  - by rewrite (Depends_get_current_user_rejected _ _ _ Hs).
  - rewrite (Depends_get_current_user_accepted _ _ _ Hs).
    rewrite verify_firebase_token_run.
    by destruct (verify_id_token E _ _).
Qed.

(** Serving a request never touches the process. *)
Lemma app_process (req : Request) (w : World) :
  process (app E req w).2 = process w.
Proof.
  pose proof (Depends_get_current_user_process req w) as Hd.
  unfold app, endpoint.
  destruct (String.eqb (path req) "/"); [reflexivity |].
  destruct (String.eqb (path req) "/health"); [reflexivity |].
  destruct (String.eqb (path req) "/api/protected").
  { unfold bind.
    by destruct (Depends_get_current_user E req w) as [[r | user] w']. }
  destruct (String.eqb (path req) "/api/user/profile"); [| reflexivity].
  unfold bind.
  destruct (Depends_get_current_user E req w) as [[r | user] w']; [done |].
  unfold call, lift_exc. by destruct (get_user_profile user).
Qed.

End Gate.

(** ** The claims *)

(** C9. For every decoded claim set, [get_current_user] returns a dictionary
    whose keys are exactly [uid], [email], [name] and [picture]; each is bound
    to what [token_data.get] gives, so to [None] when the claim is missing;
    no other claim of the token appears in the result. *)
Theorem get_current_user_shape (token_data : gmap string value) :
  dom (get_current_user token_data) = ({[ "uid"; "email"; "name"; "picture" ]} : gset string)
  /\ (forall k : string, k ∈ identity_keys ->
        get_current_user token_data !! k = Some (get token_data k)
        /\ (token_data !! k = None -> get_current_user token_data !! k = Some VNone))
  /\ (forall k : string, k ∉ identity_keys -> get_current_user token_data !! k = None).
Proof.
  split; [apply get_current_user_dom |].
  split; [| apply get_current_user_lookup_other].
  intros k Hk. split; [by apply get_current_user_lookup |].
  intros Hnone. rewrite get_current_user_lookup by done.
  unfold get. by rewrite Hnone.
Qed.

(** C2. Whatever exception the provider raises for a token, the verifier
    raises one [HTTPException] of status 401 whose detail is
    ["Invalid authentication credentials: "] followed by the exception's
    [str()]; otherwise it returns the provider's claim set.  There is no
    third outcome, and the world is left as it was. *)
Theorem verify_firebase_token_outcome (E : Env)
    (credentials0 : HTTPAuthorizationCredentials) (w : World) :
  match verify_id_token E (firebase_app (process w)) (credentials credentials0) with
  | inl e =>
      verify_firebase_token E credentials0 w
      = (inl (RaiseHTTP {| status_code := 401;
                           detail := "Invalid authentication credentials: " ++ exc_str e |}),
         w)
  | inr claims =>
      verify_firebase_token E credentials0 w = (inr claims, w)
  end.
Proof.
  rewrite verify_firebase_token_run.
  by destruct (verify_id_token E _ _).
Qed.

(** C7. Whatever the [Authorization] header and whatever the collaborators,
    [GET /] answers 200 with [{"message": "HealthScan AI Backend API"}] and
    [GET /health] answers 200 with [{"status": "healthy"}]; the only call made
    is the handler's own, so neither the scheme nor the verifier runs. *)
Theorem public_routes_static (E : Env) (header : option string) (w : World) :
  app E (mkRequest "/" header) w
  = ({| status := 200;
        body := VDict {[ "message" := VStr "HealthScan AI Backend API" ]} |},
     enter fn_read_root w)
  /\ app E (mkRequest "/health" header) w
     = ({| status := 200; body := VDict {[ "status" := VStr "healthy" ]} |},
        enter fn_health_check w).
Proof. split; reflexivity. Qed.

(** C1. A request to a protected route whose bearer token the provider
    accepts is answered 200, and the [uid] of the identity it carries is the
    subject claim of the decoded claim set.  The code reads the [uid] entry
    of the claim set; the provider is the Firebase Admin SDK, whose
    [verify_id_token] hands the subject back under [uid] as well as under
    [sub], and that contract is the first hypothesis. *)
Theorem protected_identity_subject (E : Env) (req : Request) (w : World)
    (credentials0 : HTTPAuthorizationCredentials) (claims : gmap string value) :
  (forall (a : option App) (token : string) (c : gmap string value),
     verify_id_token E a token = inr c -> c !! "uid" = c !! "sub") ->
  protected_path (path req) ->
  security E (authorization req) = inr credentials0 ->
  verify_id_token E (firebase_app (process w)) (credentials credentials0) = inr claims ->
  status (app E req w).1 = 200
  /\ exists user : gmap string value,
       identity_of (path req) (body (app E req w).1) = Some user
       /\ user !! "uid" = Some (get claims "sub").
Proof.
  intros Hsdk Hp Hs Hv.
  rewrite (app_protected_verified E req w credentials0 claims Hp Hs Hv). cbn.
  split; [reflexivity |].
  exists (get_current_user claims). split.
  - destruct Hp as [Hp | Hp]; rewrite Hp; cbn.
    + unfold protected_route. by simplify_map_eq.
    + reflexivity.
  - rewrite get_current_user_lookup by (apply identity_keys_elem; auto).
    unfold get. by rewrite (Hsdk _ _ _ Hv).
Qed.

Lemma protected_identity_subject_alice :
  status (app (Sample.env 403)
              (mkRequest "/api/protected" (Sample.bearer "alice-token"))
              Sample.running).1 = 200
  /\ exists user : gmap string value,
       identity_of "/api/protected"
         (body (app (Sample.env 403)
                    (mkRequest "/api/protected" (Sample.bearer "alice-token"))
                    Sample.running).1) = Some user
       /\ user !! "uid" = Some (get Sample.alice "sub").
Proof.
  apply (protected_identity_subject (Sample.env 403)
           (mkRequest "/api/protected" (Sample.bearer "alice-token"))
           Sample.running
           (mkHTTPAuthorizationCredentials "Bearer" "alice-token")
           Sample.alice).
  - intros a token c. cbn. unfold Sample.provider.
    destruct a as [a |]; [| discriminate].
    destruct (String.eqb token "alice-token"); [| discriminate].
    intros [= <-]. reflexivity.
  - left. reflexivity.
  - reflexivity.
  - reflexivity.
Defined.

(** C3, as stated, fails: the status of a request without an [Authorization]
    header is chosen by the bearer scheme, which runs before the verifier.
    With a scheme that rejects with 403, [GET /api/protected] without a
    header is answered 403. *)
Lemma no_header_not_always_401 :
  ~ (forall (E : Env) (req : Request) (w : World),
       protected_path (path req) ->
       authorization req = None ->
       status (app E req w).1 = 401).
Proof.
  intros H.
  specialize (H (Sample.env 403) (mkRequest "/api/protected" None) Sample.running).
  vm_compute in H.
  specialize (H (or_introl eq_refl) eq_refl). discriminate H.
Qed.

(** C3, amended. A request to a protected route that carries no
    [Authorization] header is answered with the exception the bearer scheme
    raises for a missing header: its status, and its detail in the body.
    Only the scheme is called: neither the verifier nor the handler runs. *)
Theorem no_header_rejected_by_scheme (E : Env) (req : Request) (w : World)
    (e : HTTPException) :
  protected_path (path req) ->
  authorization req = None ->
  security E None = inl e ->
  app E req w
  = ({| status := status_code e; body := VDict {[ "detail" := VStr (detail e) ]} |},
     enter fn_security w).
Proof.
  intros Hp Hnone Hs.
  apply (app_protected_raised E req w _ (RaiseHTTP e) Hp).
  apply Depends_get_current_user_rejected. by rewrite Hnone.
Qed.

Lemma no_header_rejected_by_scheme_403 :
  app (Sample.env 403) (mkRequest "/api/user/profile" None) Sample.degraded
  = ({| status := 403; body := VDict {[ "detail" := VStr "Not authenticated" ]} |},
     enter fn_security Sample.degraded).
Proof.
  apply (no_header_rejected_by_scheme (Sample.env 403)
           (mkRequest "/api/user/profile" None) Sample.degraded
           (mkHTTPException 403 "Not authenticated")).
  - right. reflexivity.
  - reflexivity.
  - reflexivity.
Defined.

(** C4. On a protected route, when the token verifier raises, the response
    is built from what it raised (for its [HTTPException]: that status, and
    that detail in the body) and the world is the one the verifier left: the
    calls made are the scheme's and the verifier's, so neither
    [get_current_user] nor the route's handler has run. *)
Theorem verifier_failure_skips_handler (E : Env) (req : Request) (w w' : World)
    (credentials0 : HTTPAuthorizationCredentials) (r : Raised) :
  protected_path (path req) ->
  security E (authorization req) = inr credentials0 ->
  verify_firebase_token E credentials0
    (enter fn_verify_firebase_token (enter fn_security w)) = (inl r, w') ->
  app E req w = (respond (inl r), w')
  /\ calls_since w w' [fn_security; fn_verify_firebase_token]
  /\ (forall f : Fn,
        f = fn_get_current_user \/ f = fn_protected_route \/ f = fn_get_user_profile ->
        f ∉ calls w -> f ∉ calls w').
Proof.
  intros Hp Hs Hv.
  split.
  - apply (app_protected_raised E req w w' r Hp).
    rewrite (Depends_get_current_user_accepted E req w credentials0 Hs).
    by rewrite Hv.
  - assert (Hcalls : calls_since w w' [fn_security; fn_verify_firebase_token]).
    { pose proof (verify_firebase_token_world E credentials0
                    (enter fn_verify_firebase_token (enter fn_security w))) as Hw.
      rewrite Hv in Hw. cbn in Hw. subst w'.
      unfold calls_since. cbn. by rewrite <- app_assoc. }
    split; [exact Hcalls |].
    intros f Hf Hbefore. rewrite Hcalls.
    rewrite elem_of_app, !elem_of_cons, elem_of_nil.
    intros [Hin | [-> | [-> | []]]]; [done | |];
      destruct Hf as [Hf | [Hf | Hf]]; discriminate Hf.
Qed.

Lemma verifier_failure_skips_handler_mallory :
  app (Sample.env 403) (mkRequest "/api/protected" (Sample.bearer "mallory"))
      Sample.running
  = ({| status := 401;
        body := VDict {[ "detail" :=
          VStr "Invalid authentication credentials: Wrong number of segments in token" ]} |},
     enter fn_verify_firebase_token (enter fn_security Sample.running))
  /\ calls_since Sample.running
       (enter fn_verify_firebase_token (enter fn_security Sample.running))
       [fn_security; fn_verify_firebase_token].
Proof.
  destruct (verifier_failure_skips_handler (Sample.env 403)
              (mkRequest "/api/protected" (Sample.bearer "mallory"))
              Sample.running
              (enter fn_verify_firebase_token (enter fn_security Sample.running))
              (mkHTTPAuthorizationCredentials "Bearer" "mallory")
              (RaiseHTTP {| status_code := 401;
                            detail := "Invalid authentication credentials: "
                                      ++ "Wrong number of segments in token" |}))
    as (Happ & Hcalls & _).
  - left. reflexivity.
  - reflexivity.
  - reflexivity.
  - split; [exact Happ | exact Hcalls].
Defined.

(** C5, as stated, fails on its second part: with the credential file absent
    the verifier refuses every token, but a request without a header never
    reaches it.  With a scheme that rejects with 403, startup succeeds and
    [GET /api/protected] without a header is then answered 403. *)
Lemma absent_credentials_not_always_401 :
  ~ (forall (E : Env) (os : OS),
       path_exists os (cred_path os) = false ->
       exists p : Process,
         startup E os = inr p
         /\ forall (req : Request) (w : World),
              process w = p ->
              (protected_path (path req) -> status (app E req w).1 = 401)
              /\ (path req = "/" ->
                  (app E req w).1 = {| status := 200; body := read_root |})
              /\ (path req = "/health" ->
                  (app E req w).1 = {| status := 200; body := health_check |})).
Proof.
  intros H.
  destruct (H (Sample.env 403) Sample.bare eq_refl) as (p & Hstart & Hserve).
  vm_compute in Hstart. injection Hstart as <-.
  destruct (Hserve (mkRequest "/api/protected" None) Sample.degraded eq_refl)
    as (H401 & _).
  specialize (H401 (or_introl eq_refl)).
  vm_compute in H401. discriminate H401.
Qed.

(** C5, amended. If the credential file is absent when the process starts,
    startup raises nothing: it leaves no application registered and prints
    the warning.  From then on, provided the provider refuses every token
    while no application is registered, a request to a protected route is
    answered 401 when the bearer scheme accepts its header and with the
    scheme's own status when it does not, and [GET /] and [GET /health]
    answer as usual. *)
Theorem startup_without_credentials (E : Env) (os : OS) :
  path_exists os (cred_path os) = false ->
  (forall token : string, exists e : Exception, verify_id_token E None token = inl e) ->
  exists p : Process,
    startup E os = inr p
    /\ firebase_app p = None
    /\ stdout p = [warning]
    /\ forall (req : Request) (w : World),
         process w = p ->
         (protected_path (path req) ->
            match security E (authorization req) with
            | inr _ => status (app E req w).1 = 401
            | inl e => status (app E req w).1 = status_code e
            end)
         /\ (path req = "/" ->
             (app E req w).1
             = {| status := 200;
                  body := VDict {[ "message" := VStr "HealthScan AI Backend API" ]} |})
         /\ (path req = "/health" ->
             (app E req w).1
             = {| status := 200; body := VDict {[ "status" := VStr "healthy" ]} |}).
Proof.
  intros Habsent Hrefuse.
  exists {| firebase_app := None; stdout := [warning] |}.
  split; [unfold startup; by rewrite Habsent |].
  split; [reflexivity |]. split; [reflexivity |].
  intros req w Hw. split; [| split].
  - intros Hp.
    destruct (security E (authorization req)) as [e | credentials0] eqn:Hs.
    + rewrite (app_protected_raised E req w (enter fn_security w) (RaiseHTTP e) Hp);
        [reflexivity |].
      by apply Depends_get_current_user_rejected.
    + destruct (Hrefuse (credentials credentials0)) as [e He].
      rewrite (app_protected_refused E req w credentials0 e Hp Hs); [reflexivity |].
      by rewrite Hw.
  - intros Hp. unfold app, endpoint. by rewrite Hp.
  - intros Hp. unfold app, endpoint. by rewrite Hp.
Qed.

Lemma startup_without_credentials_bare :
  exists p : Process,
    startup (Sample.env 403) Sample.bare = inr p
    /\ firebase_app p = None
    /\ stdout p = [warning]
    /\ forall (req : Request) (w : World),
         process w = p ->
         (protected_path (path req) ->
            match security (Sample.env 403) (authorization req) with
            | inr _ => status (app (Sample.env 403) req w).1 = 401
            | inl e => status (app (Sample.env 403) req w).1 = status_code e
            end)
         /\ (path req = "/" ->
             (app (Sample.env 403) req w).1
             = {| status := 200;
                  body := VDict {[ "message" := VStr "HealthScan AI Backend API" ]} |})
         /\ (path req = "/health" ->
             (app (Sample.env 403) req w).1
             = {| status := 200; body := VDict {[ "status" := VStr "healthy" ]} |}).
Proof.
  apply (startup_without_credentials (Sample.env 403) Sample.bare).
  - reflexivity.
  - intros token.
    exists (mkException "ValueError" "The default Firebase app does not exist.").
    reflexivity.
Defined.

(** C6. A request to [GET /api/user/profile] whose bearer token the provider
    accepts is answered 200 with a dictionary whose keys are exactly [uid],
    [email], [name] and [picture], each bound as in the identity that
    [get_current_user] built from the token's claims. *)
Theorem get_user_profile_response (E : Env) (req : Request) (w : World)
    (credentials0 : HTTPAuthorizationCredentials) (claims : gmap string value) :
  path req = "/api/user/profile" ->
  security E (authorization req) = inr credentials0 ->
  verify_id_token E (firebase_app (process w)) (credentials credentials0) = inr claims ->
  exists d : gmap string value,
    (app E req w).1 = {| status := 200; body := VDict d |}
    /\ dom d = ({[ "uid"; "email"; "name"; "picture" ]} : gset string)
    /\ forall k : string,
         k ∈ dom d -> d !! k = get_current_user claims !! k.
Proof.
  intros Hp Hs Hv.
  exists (get_current_user claims).
  rewrite (app_protected_verified E req w credentials0 claims (or_intror Hp) Hs Hv).
  rewrite Hp. cbn.
  split; [reflexivity |]. split; [apply get_current_user_dom | done].
Qed.

Lemma get_user_profile_response_alice :
  exists d : gmap string value,
    (app (Sample.env 401)
         (mkRequest "/api/user/profile" (Sample.bearer "alice-token"))
         Sample.running).1 = {| status := 200; body := VDict d |}
    /\ dom d = ({[ "uid"; "email"; "name"; "picture" ]} : gset string)
    /\ forall k : string,
         k ∈ dom d -> d !! k = get_current_user Sample.alice !! k.
Proof.
  apply (get_user_profile_response (Sample.env 401)
           (mkRequest "/api/user/profile" (Sample.bearer "alice-token"))
           Sample.running
           (mkHTTPAuthorizationCredentials "Bearer" "alice-token")
           Sample.alice).
  - reflexivity.
  - reflexivity.
  - reflexivity.
Defined.




(** C10. For one and the same header, accepted by the scheme and by the
    provider, the dictionary under ["user"] in the body of
    [GET /api/protected] is the whole body of [GET /api/user/profile]: both
    are the identity [get_current_user] builds from the token's claims. *)
Theorem protected_user_is_profile (E : Env) (header : option string) (w : World)
    (credentials0 : HTTPAuthorizationCredentials) (claims : gmap string value) :
  security E header = inr credentials0 ->
  verify_id_token E (firebase_app (process w)) (credentials credentials0) = inr claims ->
  exists user : gmap string value,
    user = get_current_user claims
    /\ (app E (mkRequest "/api/protected" header) w).1
       = {| status := 200;
            body := VDict {[ "message" := VStr "This is a protected route";
                             "user" := VDict user ]} |}
    /\ (app E (mkRequest "/api/user/profile" header) w).1
       = {| status := 200; body := VDict user |}.
Proof.
  intros Hs Hv.
  exists (get_current_user claims). split; [reflexivity |].
  split.
  - by rewrite (app_protected_verified E (mkRequest "/api/protected" header) w
                  credentials0 claims (or_introl eq_refl) Hs Hv).
  - by rewrite (app_protected_verified E (mkRequest "/api/user/profile" header) w
                  credentials0 claims (or_intror eq_refl) Hs Hv).
Qed.

Lemma protected_user_is_profile_alice :
  exists user : gmap string value,
    user = get_current_user Sample.alice
    /\ (app (Sample.env 401)
            (mkRequest "/api/protected" (Sample.bearer "alice-token"))
            Sample.running).1
       = {| status := 200;
            body := VDict {[ "message" := VStr "This is a protected route";
                             "user" := VDict user ]} |}
    /\ (app (Sample.env 401)
            (mkRequest "/api/user/profile" (Sample.bearer "alice-token"))
            Sample.running).1
       = {| status := 200; body := VDict user |}.
Proof.
  apply (protected_user_is_profile (Sample.env 401)
           (Sample.bearer "alice-token") Sample.running
           (mkHTTPAuthorizationCredentials "Bearer" "alice-token")
           Sample.alice).
  - reflexivity.
  - reflexivity.
Defined.

(** ** Further properties of the two files *)

(** *** Startup *)

(** X1. Startup fails exactly when the credential file exists and either
    loading it or registering it raises; the exception is the one raised.
    An absent file is never a failure. *)
Theorem startup_fails_iff (E : Env) (os : OS) (e : Exception) :
  startup E os = inl e
  <-> path_exists os (cred_path os) = true
      /\ (Certificate E (cred_path os) = inl e
          \/ exists cred : Credential,
               Certificate E (cred_path os) = inr cred
               /\ initialize_app E cred = inl e).
Proof.
  unfold startup.
  destruct (path_exists os (cred_path os)).
  - destruct (Certificate E (cred_path os)) as [e1 | cred].
    + split.
      * intros [= ->]. split; [reflexivity | by left].
      * intros [_ [[= ->] | (cred & [=] & _)]]. reflexivity.
    + destruct (initialize_app E cred) as [e2 | a] eqn:Hinit.
      * split.
        -- intros [= ->]. split; [reflexivity |]. right. by exists cred.
        -- intros [_ [[=] | (cred' & [= <-] & Hinit')]]. congruence.
      * split; [discriminate |].
        intros [_ [[=] | (cred' & [= <-] & Hinit')]]. congruence.
  - split; [discriminate | intros [[=] _]].
Qed.

(** X2. In the process startup leaves, an application is registered exactly
    when the credential file exists, and then it is the one built from the
    file at [cred_path] and nothing was printed; the warning is printed
    exactly when no application is registered. *)
Theorem startup_registers_credential (E : Env) (os : OS) (p : Process) :
  startup E os = inr p ->
  (path_exists os (cred_path os) = true
   /\ stdout p = []
   /\ exists (cred : Credential) (a : App),
        Certificate E (cred_path os) = inr cred
        /\ initialize_app E cred = inr a
        /\ firebase_app p = Some a)
  \/ (path_exists os (cred_path os) = false
      /\ stdout p = [warning]
      /\ firebase_app p = None).
Proof.
  unfold startup.
  destruct (path_exists os (cred_path os)).
  - destruct (Certificate E (cred_path os)) as [e1 | cred]; [discriminate |].
    destruct (initialize_app E cred) as [e2 | a] eqn:Hinit; [discriminate |].
    intros [= <-]. left. split; [reflexivity |]. split; [reflexivity |].
    by exists cred, a.
  - intros [= <-]. by right.
Qed.

Lemma startup_registers_credential_provisioned :
  (path_exists Sample.provisioned (cred_path Sample.provisioned) = true
   /\ stdout (process Sample.running) = []
   /\ exists (cred : Credential) (a : App),
        Certificate (Sample.env 401) (cred_path Sample.provisioned) = inr cred
        /\ initialize_app (Sample.env 401) cred = inr a
        /\ firebase_app (process Sample.running) = Some a)
  \/ (path_exists Sample.provisioned (cred_path Sample.provisioned) = false
      /\ stdout (process Sample.running) = [warning]
      /\ firebase_app (process Sample.running) = None).
Proof.
  apply (startup_registers_credential (Sample.env 401) Sample.provisioned
           (process Sample.running)).
  reflexivity.
Defined.

(** *** The profile handler on an arbitrary dictionary *)

Lemma getitem_inr (d : gmap string value) (k : string) (v : value) :
  getitem d k = inr v <-> d !! k = Some v.
Proof.
  unfold getitem. destruct (d !! k); split; intros H; by simplify_eq.
Qed.

Lemma getitem_inl (d : gmap string value) (k : string) (e : Exception) :
  getitem d k = inl e
  <-> d !! k = None /\ e = mkException "KeyError" ("'" ++ k ++ "'").
Proof.
  unfold getitem. destruct (d !! k); split.
  - discriminate.
  - intros [[=] _].
  - by intros [= <-].
  - by intros [_ ->].
Qed.

(** X3. [get_user_profile] returns, rather than raises, exactly when its
    argument binds all four of [uid], [email], [name] and [picture]. *)
Theorem get_user_profile_returns_iff (current_user : gmap string value) :
  (exists v : value, get_user_profile current_user = inr v)
  <-> identity_keys ⊆ dom current_user.
Proof.
  unfold get_user_profile. split.
  - intros [v Hv].
    destruct (getitem current_user "uid") as [? | uid] eqn:H1; [discriminate |].
    destruct (getitem current_user "email") as [? | email] eqn:H2; [discriminate |].
    destruct (getitem current_user "name") as [? | name] eqn:H3; [discriminate |].
    destruct (getitem current_user "picture") as [? | picture] eqn:H4; [discriminate |].
    apply getitem_inr in H1, H2, H3, H4.
    intros k Hk. apply identity_keys_elem in Hk.
    apply elem_of_dom.
    destruct Hk as [-> | [-> | [-> | ->]]]; eauto.
  - intros Hsub.
    assert (Hkey : forall k, k ∈ identity_keys ->
                     exists v, getitem current_user k = inr v).
    { intros k Hk. apply Hsub, elem_of_dom in Hk as [v Hv].
      exists v. by apply getitem_inr. }
    destruct (Hkey "uid") as [uid ->]; [apply identity_keys_elem; auto |].
    destruct (Hkey "email") as [email ->]; [apply identity_keys_elem; auto |].
    destruct (Hkey "name") as [name ->]; [apply identity_keys_elem; auto |].
    destruct (Hkey "picture") as [picture ->]; [apply identity_keys_elem; auto |].
    eauto.
Qed.

(** X4. What [get_user_profile] returns is a dictionary whose keys are
    exactly the four identity keys, each bound as in the argument: the
    argument restricted to these keys. *)
Theorem get_user_profile_restricts (current_user : gmap string value) (v : value) :
  get_user_profile current_user = inr v ->
  exists d : gmap string value,
    v = VDict d
    /\ dom d = identity_keys
    /\ (forall k : string, k ∈ identity_keys -> d !! k = current_user !! k)
    /\ (forall k : string, k ∉ identity_keys -> d !! k = None).
Proof.
  unfold get_user_profile.
  destruct (getitem current_user "uid") as [? | uid] eqn:H1; [discriminate |].
  destruct (getitem current_user "email") as [? | email] eqn:H2; [discriminate |].
  destruct (getitem current_user "name") as [? | name] eqn:H3; [discriminate |].
  destruct (getitem current_user "picture") as [? | picture] eqn:H4; [discriminate |].
  apply getitem_inr in H1, H2, H3, H4.
  intros [= <-].
  set (d := ({[ "uid" := uid; "email" := email;
                "name" := name; "picture" := picture ]} : gmap string value)).
  assert (Hdom : dom d = identity_keys).
  { unfold d, identity_keys. rewrite !dom_insert_L, dom_singleton_L.
    apply set_eq. intros k.
    rewrite !elem_of_union, !elem_of_singleton. tauto. }
  exists d. split; [reflexivity |]. split; [exact Hdom |]. split.
  - intros k Hk. apply identity_keys_elem in Hk. unfold d.
    destruct Hk as [-> | [-> | [-> | ->]]]; by simplify_map_eq.
  - intros k Hk. apply not_elem_of_dom. by rewrite Hdom.
Qed.

Lemma get_user_profile_restricts_alice :
  exists d : gmap string value,
    VDict (get_current_user Sample.alice) = VDict d
    /\ dom d = identity_keys
    /\ (forall k : string,
          k ∈ identity_keys -> d !! k = get_current_user Sample.alice !! k)
    /\ (forall k : string, k ∉ identity_keys -> d !! k = None).
Proof.
  apply (get_user_profile_restricts (get_current_user Sample.alice)
           (VDict (get_current_user Sample.alice))).
  vm_compute. reflexivity.
Defined.

(** X5. When [get_user_profile] raises, it raises the [KeyError] of the
    first of [uid], [email], [name], [picture] (in that order) that its
    argument does not bind. *)
Theorem get_user_profile_raises_first_missing (current_user : gmap string value)
    (e : Exception) :
  get_user_profile current_user = inl e ->
  exists (before after : list string) (k : string),
    ["uid"; "email"; "name"; "picture"] = (before ++ k :: after)%list
    /\ (forall k' : string, k' ∈ before -> is_Some (current_user !! k'))
    /\ current_user !! k = None
    /\ e = mkException "KeyError" ("'" ++ k ++ "'").
Proof.
  unfold get_user_profile.
  destruct (getitem current_user "uid") as [e1 | uid] eqn:H1.
  { intros [= <-]. apply getitem_inl in H1 as [Hnone ->].
    exists [], ["email"; "name"; "picture"], "uid".
    split; [reflexivity |]. split; [| done].
    intros k' Hk'. by apply elem_of_nil in Hk'. }
  apply getitem_inr in H1.
  destruct (getitem current_user "email") as [e2 | email] eqn:H2.
  { intros [= <-]. apply getitem_inl in H2 as [Hnone ->].
    exists ["uid"], ["name"; "picture"], "email".
    split; [reflexivity |]. split; [| done].
    intros k' Hk'. apply list_elem_of_singleton in Hk' as ->. eauto. }
  apply getitem_inr in H2.
  destruct (getitem current_user "name") as [e3 | name] eqn:H3.
  { intros [= <-]. apply getitem_inl in H3 as [Hnone ->].
    exists ["uid"; "email"], ["picture"], "name".
    split; [reflexivity |]. split; [| done].
    intros k' Hk'. rewrite !elem_of_cons, elem_of_nil in Hk'.
    destruct Hk' as [-> | [-> | []]]; eauto. }
  apply getitem_inr in H3.
  destruct (getitem current_user "picture") as [e4 | picture] eqn:H4; [| discriminate].
  intros [= <-]. apply getitem_inl in H4 as [Hnone ->].
  exists ["uid"; "email"; "name"], [], "picture".
  split; [reflexivity |]. split; [| done].
  intros k' Hk'. rewrite !elem_of_cons, elem_of_nil in Hk'.
  destruct Hk' as [-> | [-> | [-> | []]]]; eauto.
Qed.

Lemma get_user_profile_raises_first_missing_bob :
  exists (before after : list string) (k : string),
    ["uid"; "email"; "name"; "picture"] = (before ++ k :: after)%list
    /\ (forall k' : string, k' ∈ before -> is_Some (Sample.bob !! k'))
    /\ Sample.bob !! k = None
    /\ mkException "KeyError" "'uid'" = mkException "KeyError" ("'" ++ k ++ "'").
Proof.
  apply (get_user_profile_raises_first_missing Sample.bob
           (mkException "KeyError" "'uid'")).
  vm_compute. reflexivity.
Defined.

(** *** The identity extractor *)

(** X6. Two claim sets give the same identity exactly when [.get] agrees on
    them for [uid], [email], [name] and [picture]: nothing else in a claim
    set matters, and a claim bound to [None] counts as a missing one. *)
Theorem get_current_user_eq_iff (t1 t2 : gmap string value) :
  get_current_user t1 = get_current_user t2
  <-> forall k : string, k ∈ identity_keys -> get t1 k = get t2 k.
Proof.
  split.
  - intros Heq k Hk.
    pose proof (get_current_user_lookup t1 k Hk) as H1.
    pose proof (get_current_user_lookup t2 k Hk) as H2.
    rewrite Heq in H1. congruence.
  - intros Hget. apply map_eq. intros k.
    destruct (decide (k ∈ identity_keys)) as [Hk | Hk].
    + rewrite !get_current_user_lookup by done. f_equal. by apply Hget.
    + by rewrite !get_current_user_lookup_other.
Qed.

(** X7. Extracting the identity from an identity changes nothing:
    [get_current_user] is a projection. *)
Theorem get_current_user_idempotent (token_data : gmap string value) :
  get_current_user (get_current_user token_data) = get_current_user token_data.
Proof.
  apply map_eq. intros k.
  destruct (decide (k ∈ identity_keys)) as [Hk | Hk].
  - rewrite !get_current_user_lookup by done. f_equal.
    unfold get at 1. by rewrite get_current_user_lookup.
  - by rewrite !get_current_user_lookup_other.
Qed.

(** *** The gate as a whole *)

Section Gate_more.
Context (E : Env).

(** The outcome of obtaining the identity, spelled out. *)
Lemma Depends_get_current_user_run (req : Request) (w : World) :
  Depends_get_current_user E req w
  = match security E (authorization req) with
    | inl e => (inl (RaiseHTTP e), enter fn_security w)
    | inr credentials0 =>
        match verify_id_token E (firebase_app (process w))
                (credentials credentials0) with
        | inl e =>
            (inl (RaiseHTTP
                    {| status_code := 401;
                       detail := "Invalid authentication credentials: " ++ exc_str e |}),
             enter fn_verify_firebase_token (enter fn_security w))
        | inr claims =>
            (inr (get_current_user claims),
             enter fn_get_current_user
               (enter fn_verify_firebase_token (enter fn_security w)))
        end
    end.
Proof.
  destruct (security E (authorization req)) as [e | credentials0] eqn:Hs.
  - by apply Depends_get_current_user_rejected.
  - rewrite (Depends_get_current_user_accepted E req w credentials0 Hs).
    rewrite verify_firebase_token_run. cbn.
    by destruct (verify_id_token E _ _).
Qed.

(** Which endpoint a path has. *)
Lemma endpoint_cases (req : Request) :
  (path req = "/" /\ endpoint E req = Some (call fn_read_root (ret read_root)))
  \/ (path req = "/health"
      /\ endpoint E req = Some (call fn_health_check (ret health_check)))
  \/ (path req = "/api/protected"
      /\ endpoint E req
         = Some (current_user <- Depends_get_current_user E req ;;
                 call fn_protected_route (ret (protected_route current_user))))
  \/ (path req = "/api/user/profile"
      /\ endpoint E req
         = Some (current_user <- Depends_get_current_user E req ;;
                 call fn_get_user_profile
                   (lift_exc (get_user_profile current_user))))
  \/ endpoint E req = None.
Proof.
  unfold endpoint.
  destruct (String.eqb_spec (path req) "/") as [-> | _]; [by left |].
  destruct (String.eqb_spec (path req) "/health") as [-> | _];
    [right; by left |].
  destruct (String.eqb_spec (path req) "/api/protected") as [-> | _];
    [right; right; by left |].
  destruct (String.eqb_spec (path req) "/api/user/profile") as [-> | _];
    [right; right; right; by left |].
  by repeat right.
Qed.

End Gate_more.

Section Gate_properties.
Context (E : Env).

(** X8. No endpoint lets a plain exception escape: whatever the request,
    the world and the collaborators, an endpoint either returns or raises an
    [HTTPException].  In particular the four subscripts of
    [get_user_profile] never raise [KeyError] behind the dependency chain. *)
Theorem endpoint_raises_http_only (req : Request) (w : World) (m : M value)
    (e : Exception) :
  endpoint E req = Some m ->
  (m w).1 <> inl (RaiseExc e).
Proof.
  intros Hm.
  destruct (endpoint_cases E req)
    as [[_ H] | [[_ H] | [[_ H] | [[_ H] | H]]]];
    rewrite H in Hm; simplify_eq; try discriminate.
  - unfold bind. rewrite Depends_get_current_user_run.
    destruct (security E (authorization req)) as [e' | c]; [discriminate |].
    by destruct (verify_id_token E _ _).
  - unfold bind. rewrite Depends_get_current_user_run.
    destruct (security E (authorization req)) as [e' | c]; [discriminate |].
    destruct (verify_id_token E _ _) as [e' | claims]; [discriminate |].
    unfold call. by rewrite get_user_profile_get_current_user.
Qed.

(** X9. The endpoint of a protected route returns a value, rather than
    raising, exactly when the bearer scheme accepts the request's header and
    the provider accepts the token it carries. *)
Theorem protected_returns_iff (req : Request) (w : World) (m : M value) :
  protected_path (path req) ->
  endpoint E req = Some m ->
  (exists v : value, (m w).1 = inr v)
  <-> exists (credentials0 : HTTPAuthorizationCredentials)
             (claims : gmap string value),
        security E (authorization req) = inr credentials0
        /\ verify_id_token E (firebase_app (process w)) (credentials credentials0)
           = inr claims.
Proof.
  intros Hp Hm.
  assert (Hshape :
    exists k : gmap string value -> M value,
      m = (current_user <- Depends_get_current_user E req ;; k current_user)
      /\ forall claims w', exists v, (k (get_current_user claims) w').1 = inr v).
  { destruct Hp as [Hp | Hp].
    - rewrite (endpoint_protected E req Hp) in Hm. simplify_eq.
      eexists. split; [reflexivity |]. intros claims w'. by eexists.
    - rewrite (endpoint_profile E req Hp) in Hm. simplify_eq.
      eexists. split; [reflexivity |]. intros claims w'.
      unfold call. rewrite get_user_profile_get_current_user. by eexists. }
  destruct Hshape as (k & -> & Hk).
  unfold bind. rewrite Depends_get_current_user_run.
  destruct (security E (authorization req)) as [e | c].
  { split; [intros [v [=]] | intros (c & claims & [=] & _)]. }
  destruct (verify_id_token E _ _) as [e | claims] eqn:Hv.
  { split; [intros [v [=]] |].
    intros (c' & claims & [= <-] & Hv'). congruence. }
  split; [intros _; by exists c, claims | intros _; apply Hk].
Qed.

(** X10. Unless both the bearer scheme and the provider accept, the two
    protected routes answer a given header alike: same response, same calls
    made. *)
Theorem protected_routes_fail_alike (header : option string) (w : World) :
  ~ (exists (credentials0 : HTTPAuthorizationCredentials)
            (claims : gmap string value),
       security E header = inr credentials0
       /\ verify_id_token E (firebase_app (process w)) (credentials credentials0)
          = inr claims) ->
  app E (mkRequest "/api/protected" header) w
  = app E (mkRequest "/api/user/profile" header) w.
Proof.
  intros Hno. unfold app.
  rewrite (endpoint_protected E (mkRequest "/api/protected" header) eq_refl).
  rewrite (endpoint_profile E (mkRequest "/api/user/profile" header) eq_refl).
  unfold bind. rewrite !Depends_get_current_user_run. cbn.
  destruct (security E header) as [e | c]; [reflexivity |].
  destruct (verify_id_token E _ _) as [e | claims] eqn:Hv; [reflexivity |].
  exfalso. apply Hno. by exists c, claims.
Qed.

End Gate_properties.

Lemma endpoint_raises_http_only_alice :
  ((current_user <- Depends_get_current_user (Sample.env 403)
                      (mkRequest "/api/user/profile" (Sample.bearer "alice-token")) ;;
    call fn_get_user_profile (lift_exc (get_user_profile current_user)))
     Sample.running).1
  <> inl (RaiseExc (mkException "KeyError" "'name'")).
Proof.
  apply (endpoint_raises_http_only (Sample.env 403)
           (mkRequest "/api/user/profile" (Sample.bearer "alice-token"))).
  reflexivity.
Defined.

Lemma protected_returns_iff_mallory :
  (exists v : value,
     ((current_user <- Depends_get_current_user (Sample.env 403)
                         (mkRequest "/api/protected" (Sample.bearer "mallory")) ;;
       call fn_protected_route (ret (protected_route current_user)))
        Sample.running).1 = inr v)
  <-> exists (credentials0 : HTTPAuthorizationCredentials)
             (claims : gmap string value),
        security (Sample.env 403) (Sample.bearer "mallory") = inr credentials0
        /\ verify_id_token (Sample.env 403)
             (firebase_app (process Sample.running)) (credentials credentials0)
           = inr claims.
Proof.
  apply (protected_returns_iff (Sample.env 403)
           (mkRequest "/api/protected" (Sample.bearer "mallory"))
           Sample.running).
  - left. reflexivity.
  - reflexivity.
Defined.

Lemma protected_routes_fail_alike_mallory :
  app (Sample.env 403) (mkRequest "/api/protected" (Sample.bearer "mallory"))
      Sample.running
  = app (Sample.env 403) (mkRequest "/api/user/profile" (Sample.bearer "mallory"))
        Sample.running.
Proof.
  apply (protected_routes_fail_alike (Sample.env 403) (Sample.bearer "mallory")
           Sample.running).
  intros (c & claims & Hs & Hv).
  vm_compute in Hs. injection Hs as <-.
  vm_compute in Hv. discriminate Hv.
Defined.

(** *** What the 401 tells the caller *)

Lemma string_app_inj (p s1 s2 : string) : p ++ s1 = p ++ s2 -> s1 = s2.
Proof.
  induction p as [| a p IH]; cbn; [done |].
  intros [= H]. by apply IH.
Qed.

(** X11. Of the exception the provider raised, the verifier's 401 keeps the
    message and nothing else: two failures lead to the same error exactly
    when the two exceptions have the same [str()], whatever their classes. *)
Theorem verify_firebase_token_keeps_message (E1 E2 : Env)
    (credentials0 : HTTPAuthorizationCredentials) (w : World) (e1 e2 : Exception) :
  verify_id_token E1 (firebase_app (process w)) (credentials credentials0) = inl e1 ->
  verify_id_token E2 (firebase_app (process w)) (credentials credentials0) = inl e2 ->
  (verify_firebase_token E1 credentials0 w).1 = (verify_firebase_token E2 credentials0 w).1
  <-> exc_str e1 = exc_str e2.
Proof.
  intros H1 H2. rewrite !verify_firebase_token_run, H1, H2. cbn.
  split.
  - intros [= H]. by apply string_app_inj in H.
  - by intros ->.
Qed.

Lemma verify_firebase_token_keeps_message_mallory :
  (verify_firebase_token (Sample.env 403)
     (mkHTTPAuthorizationCredentials "Bearer" "mallory") Sample.running).1
  = (verify_firebase_token (with_provider (Sample.env 401) Sample.provider_later)
       (mkHTTPAuthorizationCredentials "Bearer" "mallory") Sample.running).1
  <-> "Wrong number of segments in token" = "Wrong number of segments in token".
Proof.
  apply (verify_firebase_token_keeps_message (Sample.env 403)
           (with_provider (Sample.env 401) Sample.provider_later)
           (mkHTTPAuthorizationCredentials "Bearer" "mallory") Sample.running
           (mkException "InvalidIdTokenError" "Wrong number of segments in token")
           (mkException "InvalidIdTokenError" "Wrong number of segments in token")).
  - reflexivity.
  - reflexivity.
Defined.
